(** * Mohr stress circle (2D): stress state of a rock element

    A shallow embedding of [src/mohr_stress_circle.py].  The class
    [mohr_stress_circle] stores two normal stresses and a shear stress,
    derives the centre and the radius of the Mohr circle, the principal
    normal stresses and the maximum shear stress ([stress_state]), prints
    them rounded to two decimals ([disp_stress_state]) and hands two data
    series and four text annotations to the plotting library ([plot_msc]).

    The definitions come in two arithmetics.  The first part takes the
    numbers as the mathematical reals of the Standard Library, the reading
    the specification gives to the three inputs: every operation is exact.
    The module [Float64] then gives [stress_state] as the interpreter runs
    it on binary64 numbers: with rounding, with the error [**] raises on
    overflow, and with the real number each result stands for.  Where the
    exact and the rounded results part, the property is proved of exact
    arithmetic and the binary64 computation shows the difference. *)

From Stdlib Require Import Reals Lra Lia ZArith List.
From Stdlib Require PrimFloat FloatOps SpecFloat FloatAxioms.
From Stdlib Require Import String.
Import ListNotations.
Local Open Scope R_scope.

(** ** Attributes *)

(** The attributes [__init__] sets from its arguments (lines 20-22). *)
Record stress_element : Type := {
  sigmax : R;
  sigmay : R;
  shear_stress : R
}.

(** The attributes [stress_state] sets (lines 48-54); [center] is the
    two-element array [[c, 0]], read as [center[0]] and [center[1]]. *)
Record stress_values : Type := {
  center : R * R;
  radius : R;
  max_normal_stress : R;
  min_normal_stress : R;
  max_shear_stress : R
}.

(** ** stress_state *)

Definition stress_state (self : stress_element) : stress_values :=
  let center := ((sigmax self + sigmay self) / 2, 0) in
  let radius :=
    sqrt ((((sigmax self - sigmay self) / 2) ^ 2) + (shear_stress self ^ 2)) in
  {| center := center;
     radius := radius;
     max_normal_stress := fst center + radius;
     min_normal_stress := fst center - radius;
     max_shear_stress := radius |}.

(** *** The same computation with its partial operations guarded

    Over the reals division fails on a zero divisor and the square root is
    defined on non-negative arguments only; a square has no range to leave
    there.  The interpreter's own errors, on binary64 numbers, are those of
    [Float64.stress_state_checked] below. *)

Inductive arith_error : Type :=
| ZeroDivision
| SqrtOfNegative
| Overflow.

Inductive result (A : Type) : Type :=
| Ok (a : A)
| Err (e : arith_error).
Arguments Ok {A} a.
Arguments Err {A} e.

Definition bind {A B : Type} (m : result A) (k : A -> result B) : result B :=
  match m with
  | Ok a => k a
  | Err e => Err e
  end.

Notation "x <- m ;; k" := (bind m (fun x => k))
  (at level 61, m at next level, right associativity).

Definition checked_div (x y : R) : result R :=
  if Req_dec_T y 0 then Err ZeroDivision else Ok (x / y).

Definition checked_sqrt (x : R) : result R :=
  if Rle_dec 0 x then Ok (sqrt x) else Err SqrtOfNegative.

Definition stress_state_checked (self : stress_element) : result stress_values :=
  c <- checked_div (sigmax self + sigmay self) 2 ;;
  h <- checked_div (sigmax self - sigmay self) 2 ;;
  r <- checked_sqrt ((h ^ 2) + (shear_stress self ^ 2)) ;;
  Ok {| center := (c, 0);
        radius := r;
        max_normal_stress := c + r;
        min_normal_stress := c - r;
        max_shear_stress := r |}.

(** ** Rounding to decimals, as [round] and [np.round] do

    Both are taken on the exact value.  [np.round] multiplies by
    [10 ** decimals] in binary64 before it rounds, so a value within a
    rounding error of a tie can print as the other neighbour. *)

(** Round to the nearest integer, ties to the even one. *)
Definition rint (x : R) : Z :=
  let f := Int_part x in
  let d := x - IZR f in
  if Rlt_dec d (1 / 2) then f
  else if Rlt_dec (1 / 2) d then (f + 1)%Z
  else if Z.even f then f else (f + 1)%Z.

Definition np_round (v : R) (decimals : nat) : R :=
  IZR (rint (v * 10 ^ decimals)) / 10 ^ decimals.

(** ** disp_stress_state *)

(** One printed line: the label and the rounded value(s) after the colon
    (two values for the centre array, one otherwise). *)
Definition report_line : Type := (string * list R)%type.

Definition disp_stress_state (self : stress_element) (v : stress_values)
  : list report_line * list report_line :=
  ([ ("Sigma X"%string, [np_round (sigmax self) 2]);
     ("Sigma Y"%string, [np_round (sigmay self) 2]);
     ("Shear Stress"%string, [np_round (shear_stress self) 2]) ],
   [ ("Center"%string,
       [np_round (fst (center v)) 2; np_round (snd (center v)) 2]);
     ("Radius"%string, [np_round (radius v) 2]);
     ("Maximum normal stress"%string, [np_round (max_normal_stress v) 2]);
     ("Minimum normal stress"%string, [np_round (min_normal_stress v) 2]);
     ("Maximum shear stress"%string, [np_round (max_shear_stress v) 2]) ]).

(** ** plot_msc: the data series handed to [axes.plot]

    With the exact cosine and sine. *)

(** [np.linspace start stop num] with its default [endpoint=True]:
    [arange(0, num) * step + start] with [step = (stop - start) / (num - 1)],
    after which the last sample is set to [stop] when there are at least
    two. *)
Definition linspace (start stop : R) (num : nat) : list R :=
  let div := (num - 1)%nat in
  let step := (stop - start) / INR div in
  let y := map (fun i => INR i * step + start) (seq 0 num) in
  if (1 <? num)%nat then removelast y ++ [stop] else y.

(** A series is the pair of coordinate lists given to [axes.plot]; the
    points drawn are the coordinates taken position by position. *)
Definition series : Type := (list R * list R)%type.

Definition points (s : series) : list (R * R) := combine (fst s) (snd s).

Record figure : Type := {
  circle_series : series;
  line_series : series
}.

Definition degrees : list R := linspace 0 360 361.

Definition plot_msc (self : stress_element) (v : stress_values) : figure :=
  let radians := map (fun d => d * (2 * PI / 360)) degrees in
  let sigmapts := map (fun a => fst (center v) + radius v * cos a) radians in
  let taupts := map (fun a => radius v * sin a) radians in
  {| circle_series := (sigmapts, taupts);
     line_series :=
       ([sigmax self; fst (center v); sigmay self],
        [shear_stress self; snd (center v); - shear_stress self]) |}.

(** ** __init__: compute, report, render *)

Record mohr_stress_circle : Type := {
  element : stress_element;
  values : stress_values;
  printed : list report_line * list report_line;
  plotted : figure
}.

Definition __init__ (sigmax sigmay shear_stress : R) : mohr_stress_circle :=
  let self := {| sigmax := sigmax; sigmay := sigmay;
                 shear_stress := shear_stress |} in
  let v := stress_state self in
  {| element := self;
     values := v;
     printed := disp_stress_state self v;
     plotted := plot_msc self v |}.

(** The object the script builds on its last line. *)
Definition circle : mohr_stress_circle := __init__ 90 (-60) 20.

(** ** Notions the properties are stated with *)

(** Euclidean distance in the (normal stress, shear stress) plane. *)
Definition dist (p q : R * R) : R :=
  sqrt ((fst p - fst q) ^ 2 + (snd p - snd q) ^ 2).

Definition midpoint (p q : R * R) : R * R :=
  ((fst p + fst q) / 2, (snd p + snd q) / 2).

(** The element with its two normal stresses exchanged. *)
Definition swap_normal (self : stress_element) : stress_element :=
  {| sigmax := sigmay self; sigmay := sigmax self;
     shear_stress := shear_stress self |}.

(** The element with its shear stress negated. *)
Definition negate_shear (self : stress_element) : stress_element :=
  {| sigmax := sigmax self; sigmay := sigmay self;
     shear_stress := - shear_stress self |}.

(** A plotted point reflected in the normal-stress axis. *)
Definition flip_shear (p : R * R) : R * R := (fst p, - snd p).

(** ** plot_msc: the text annotations (lines 108-112) *)

(** Truncation toward zero, as [int] does on a finite float. *)
Definition int (x : R) : Z :=
  if Rle_dec 0 x then Int_part x else (- Int_part (- x))%Z.

(** A formatted string: literal text, rounded numbers and integers. *)
Inductive piece : Type :=
| Lit (s : string)
| Num (x : R)
| Int (n : Z).

(** One call of [axes.text]: where the text is anchored, what it says, and
    whether it is centred on its anchor ([ha="center"]). *)
Record annotation : Type := {
  anchor : R * R;
  text : list piece;
  centered : bool
}.

Definition plot_msc_text (v : stress_values) : list annotation :=
  let offset := 1 in
  [ {| anchor := (max_normal_stress v + offset, snd (center v));
       text := [Lit "$\sigma_1$ = "; Num (np_round (max_normal_stress v) 2)];
       centered := false |};
    {| anchor := (min_normal_stress v + offset, snd (center v));
       text := [Lit "$\sigma_2$ = "; Num (np_round (min_normal_stress v) 2)];
       centered := false |};
    {| anchor := (fst (center v), max_shear_stress v + offset);
       text := [Lit "$\tau_{max}$ = "; Num (np_round (max_shear_stress v) 2)];
       centered := false |};
    {| anchor := (fst (center v), snd (center v) + offset);
       text := [Lit "C("; Int (int (fst (center v))); Lit ", ";
                Int (int (snd (center v))); Lit ")"];
       centered := true |} ].

(** ** stress_state on binary64 numbers

    What the interpreter computes when the three inputs are floats: [+],
    [-] and [/] round to binary64, [/] raises ZeroDivisionError on a zero
    divisor, [**] raises OverflowError when the power leaves the range, and
    [np.sqrt], [np.add] and [np.subtract] return without raising. *)

Module Float64.
Import PrimFloat.
Local Open Scope float_scope.

Record stress_values : Type := {
  center : float * float;
  radius : float;
  max_normal_stress : float;
  min_normal_stress : float;
  max_shear_stress : float
}.

Definition float_div (x y : float) : result float :=
  if is_zero y then Err ZeroDivision else Ok (x / y).

(** C's [pow] at the exponent 2, taken as the correctly rounded square.
    The library's result can differ from it in the last place; it agrees
    where the square is exact or leaves the range, which is where it is
    evaluated below, and it has the same sign everywhere. *)
Definition libm_pow2 (a : float) : float := a * a.

(** [x ** 2] answers NaN, the infinities, the zeros and +1, -1 at once
    and hands every other [x], as [abs x], to C's [pow]. *)
Definition reaches_libm (x : float) : bool :=
  negb (is_nan x || is_infinity x || is_zero x || (abs x =? 1)).

(** The value of [x ** 2] when it returns. *)
Definition pow2 (x : float) : float :=
  if is_nan x then x
  else if is_infinity x then infinity
  else if is_zero x then 0
  else if abs x =? 1 then 1
  else libm_pow2 (abs x).

(** [x ** 2] raises OverflowError when C's [pow] returns an infinity. *)
Definition pow2_overflows (x : float) : bool :=
  reaches_libm x && is_infinity (libm_pow2 (abs x)).

Definition float_pow2 (x : float) : result float :=
  if pow2_overflows x then Err Overflow else Ok (pow2 x).

(** The argument of [np.sqrt] on line 49. *)
Definition radicand (sigmax sigmay shear_stress : float) : float :=
  pow2 ((sigmax - sigmay) / 2) + pow2 shear_stress.

Definition stress_state (sigmax sigmay shear_stress : float) : stress_values :=
  let center := ((sigmax + sigmay) / 2, 0) in
  let radius := sqrt (radicand sigmax sigmay shear_stress) in
  {| center := center;
     radius := radius;
     max_normal_stress := fst center + radius;
     min_normal_stress := fst center - radius;
     max_shear_stress := radius |}.

Definition stress_state_checked (sigmax sigmay shear_stress : float)
  : result stress_values :=
  c <- float_div (sigmax + sigmay) 2 ;;
  h <- float_div (sigmax - sigmay) 2 ;;
  h2 <- float_pow2 h ;;
  t2 <- float_pow2 shear_stress ;;
  let r := sqrt (h2 + t2) in
  Ok {| center := (c, 0);
        radius := r;
        max_normal_stress := c + r;
        min_normal_stress := c - r;
        max_shear_stress := r |}.

(** The three points of the line of [plot_msc] (line 92). *)
Definition line_points (sigmax sigmay shear_stress : float) (v : stress_values)
  : list (float * float) :=
  [(sigmax, shear_stress); center v; (sigmay, - shear_stress)].

(** The script's call: 90, -60 and 20 are exact in binary64. *)
Definition circle : stress_values := stress_state 90 (-60) 20.

(** *** The real number a binary64 number stands for *)

(** Numerator and denominator of a finite binary64 number. *)
Definition exactZ (x : float) : option (Z * Z) :=
  match FloatOps.Prim2SF x with
  | SpecFloat.S754_zero _ => Some (0, 1)%Z
  | SpecFloat.S754_finite s m e =>
      let n := if s then Z.neg m else Z.pos m in
      if (0 <=? e)%Z then Some (n * 2 ^ e, 1)%Z else Some (n, 2 ^ (- e))%Z
  | _ => None
  end.

(** The value of a finite binary64 number ([0] where there is none). *)
Definition to_R (x : float) : R :=
  match exactZ x with
  | Some (n, d) => (IZR n / IZR d)%R
  | None => 0%R
  end.

Definition point_to_R (p : float * float) : R * R :=
  (to_R (fst p), to_R (snd p)).

(** Zero, NaN, or of positive sign: what is not below zero. *)
Definition sf_nonneg (x : SpecFloat.spec_float) : bool :=
  match x with
  | SpecFloat.S754_nan | SpecFloat.S754_zero _ => true
  | SpecFloat.S754_infinity s | SpecFloat.S754_finite s _ _ => negb s
  end.
End Float64.

(** * Properties *)

(** ** Square roots and squares *)

Lemma radicand_nonneg (a b : R) : 0 <= a ^ 2 + b ^ 2.
Proof. nra. Qed.

Lemma sqrt_sq_nonneg (a : R) : 0 <= a -> sqrt (a ^ 2) = a.
Proof.
  intros Ha. replace (a ^ 2) with (a * a) by ring. now apply sqrt_square.
Qed.

(** C1: the radius is sqrt(((sigmax - sigmay)/2)^2 + shear^2) and it is
    non-negative, for all real inputs. *)
Theorem radius_formula_nonneg (self : stress_element) :
  radius (stress_state self)
    = sqrt (((sigmax self - sigmay self) / 2) ^ 2 + shear_stress self ^ 2)
  /\ 0 <= radius (stress_state self).
Proof.
  split.
  - reflexivity.
  - cbn [stress_state radius]. apply sqrt_pos.
Qed.

(** C2: the centre is the point ((sigmax + sigmay)/2, 0). *)
Theorem center_formula (self : stress_element) :
  center (stress_state self) = ((sigmax self + sigmay self) / 2, 0)
  /\ fst (center (stress_state self)) = (sigmax self + sigmay self) / 2
  /\ snd (center (stress_state self)) = 0.
Proof. repeat split. Qed.

(** C3: maxNormal = center + radius, minNormal = center - radius and
    maxShear = radius, with center the normal-stress coordinate of the
    circle's centre. *)
Theorem principal_stresses (self : stress_element) :
  let v := stress_state self in
  max_normal_stress v = fst (center v) + radius v
  /\ min_normal_stress v = fst (center v) - radius v
  /\ max_shear_stress v = radius v.
Proof. repeat split. Qed.

(** C6, amended: in exact real arithmetic maxNormal - minNormal =
    2 * radius, for all real inputs.  (On binary64 numbers the radius can be
    absorbed by the centre: [Float64Exact.principal_gap_fails_binary64].) *)
Theorem principal_gap (self : stress_element) :
  max_normal_stress (stress_state self) - min_normal_stress (stress_state self)
    = 2 * radius (stress_state self).
Proof. cbn. ring. Qed.

(** ** Totality *)

Lemma checked_div_two (x : R) : checked_div x 2 = Ok (x / 2).
Proof.
  unfold checked_div. destruct (Req_dec_T 2 0) as [E | _]; [lra | reflexivity].
Qed.

Lemma checked_sqrt_nonneg (x : R) : 0 <= x -> checked_sqrt x = Ok (sqrt x).
Proof.
  intros Hx. unfold checked_sqrt.
  destruct (Rle_dec 0 x) as [_ | N]; [reflexivity | contradiction].
Qed.

(** In exact arithmetic the guarded computation meets no error: the only
    divisor is 2, the argument of the square root is a sum of two squares,
    and the result is the stress state. *)
Lemma stress_state_total (self : stress_element) :
  stress_state_checked self = Ok (stress_state self)
  /\ (2 <> 0
      /\ 0 <= ((sigmax self - sigmay self) / 2) ^ 2 + shear_stress self ^ 2)
  /\ (forall e, stress_state_checked self <> Err e).
Proof.
  assert (E : stress_state_checked self = Ok (stress_state self)).
  { unfold stress_state_checked.
    rewrite !checked_div_two. cbn [bind].
    rewrite checked_sqrt_nonneg by apply radicand_nonneg.
    reflexivity. }
  split; [exact E | split].
  - split; [lra | apply radicand_nonneg].
  - intros e. rewrite E. discriminate.
Qed.

(** ** Symmetries *)

(** C9: negating the shear input leaves radius, maxNormal, minNormal and
    maxShear unchanged. *)
Theorem negate_shear_invariant (self : stress_element) :
  let v := stress_state self in
  let v' := stress_state (negate_shear self) in
  radius v' = radius v
  /\ max_normal_stress v' = max_normal_stress v
  /\ min_normal_stress v' = min_normal_stress v
  /\ max_shear_stress v' = max_shear_stress v.
Proof.
  assert (E : radius (stress_state (negate_shear self))
              = radius (stress_state self)).
  { cbn. apply f_equal. field. }
  cbn zeta.
  unfold stress_state in *. cbn in *. rewrite E. repeat split.
Qed.

Lemma swap_radius (self : stress_element) :
  radius (stress_state (swap_normal self)) = radius (stress_state self).
Proof. cbn. apply f_equal. field. Qed.

Lemma swap_center (self : stress_element) :
  center (stress_state (swap_normal self)) = center (stress_state self).
Proof. cbn. apply (f_equal (fun c => (c, 0))). field. Qed.

(** C5: exchanging sigmax and sigmay keeps the centre and the radius; the
    three-point line of the exchanged run is the original one with the
    shear of every point negated (and drawn from the other end): the point at
    normal stress sigmax carries +shear before and -shear after, the one at
    sigmay carries -shear before and +shear after. *)
Theorem swap_normal_stresses (self : stress_element) :
  let v := stress_state self in
  let v' := stress_state (swap_normal self) in
  center v' = center v
  /\ radius v' = radius v
  /\ points (line_series (plot_msc self v))
       = [(sigmax self, shear_stress self);
          center v;
          (sigmay self, - shear_stress self)]
  /\ points (line_series (plot_msc (swap_normal self) v'))
       = [(sigmay self, shear_stress self);
          center v;
          (sigmax self, - shear_stress self)]
  /\ points (line_series (plot_msc (swap_normal self) v'))
       = rev (map flip_shear (points (line_series (plot_msc self v)))).
Proof.
  cbn zeta.
  split; [apply swap_center | split; [apply swap_radius |]].
  assert (C : (sigmay self + sigmax self) / 2 = (sigmax self + sigmay self) / 2)
    by (f_equal; ring).
  assert (Z0 : - 0 = 0) by ring.
  assert (N : - - shear_stress self = shear_stress self) by ring.
  repeat split; unfold flip_shear; cbn; rewrite ?C, ?Z0, ?N; reflexivity.
Qed.

(** ** The plotted line is a diameter *)

Lemma sqrt_four_times (x : R) : 0 <= x -> sqrt (4 * x) = 2 * sqrt x.
Proof.
  intros Hx. rewrite sqrt_mult by lra.
  replace 4 with (2 * 2) by ring. rewrite sqrt_square by lra. reflexivity.
Qed.

(** C10, amended: in exact real arithmetic the end points (sigmax, shear)
    and (sigmay, -shear) of the plotted line are at distance radius from the
    centre, the centre is their midpoint, and so the segment between them is
    a diameter.  (On binary64 numbers the rounded centre and radius miss
    this by a rounding error: [Float64Exact.line_not_diameter_binary64].) *)
Theorem line_is_diameter (self : stress_element) :
  let v := stress_state self in
  let p := (sigmax self, shear_stress self) in
  let q := (sigmay self, - shear_stress self) in
  points (line_series (plot_msc self v)) = [p; center v; q]
  /\ dist p (center v) = radius v
  /\ dist q (center v) = radius v
  /\ midpoint p q = center v
  /\ dist p q = 2 * radius v.
Proof.
  cbn zeta. split; [reflexivity |].
  unfold dist, midpoint. cbn.
  split; [apply f_equal; field | split; [apply f_equal; field | split]].
  - f_equal; field.
  - rewrite <- sqrt_four_times by apply radicand_nonneg. apply f_equal. field.
Qed.

(** ** Sampling of the circle *)

Lemma linspace_samples (start stop : R) (n : nat) :
  (2 <= n)%nat ->
  linspace start stop n
    = map (fun i => start + INR i * ((stop - start) / INR (n - 1))) (seq 0 n).
Proof.
  intros Hn. unfold linspace.
  assert (L : (1 <? n)%nat = true) by (apply Nat.ltb_lt; lia).
  rewrite L. destruct n as [| m]; [lia |].
  replace (S m - 1)%nat with m by lia.
  assert (M : INR m <> 0) by (apply not_0_INR; lia).
  rewrite seq_S, !map_app. cbn [map]. rewrite removelast_last.
  apply f_equal2.
  - apply map_ext. intros i. ring.
  - apply (f_equal (fun x => [x])). rewrite Nat.add_0_l. now field.
Qed.

Lemma INR_360 : INR 360 = 360.
Proof. rewrite INR_IZR_INZ. reflexivity. Qed.

Lemma degrees_samples : degrees = map INR (seq 0 361).
Proof.
  unfold degrees. rewrite linspace_samples by lia.
  apply map_ext. intros i.
  change (361 - 1)%nat with 360%nat. rewrite INR_360. field.
Qed.

Lemma combine_map_same {A B C : Type} (f : A -> B) (g : A -> C) (l : list A) :
  combine (map f l) (map g l) = map (fun x => (f x, g x)) l.
Proof.
  induction l as [| x l IH]; [reflexivity |].
  cbn [map combine]. now rewrite IH.
Qed.

(** C7: the circle is sampled at the 361 angles 0, 1, ..., 360 degrees, and
    the point drawn for the angle of d degrees, theta = d * 2 pi / 360, is
    (center + radius * cos theta, radius * sin theta). *)
Theorem circle_sampling (self : stress_element) :
  let v := stress_state self in
  let fig := plot_msc self v in
  degrees = map INR (seq 0 361)
  /\ List.length degrees = 361%nat
  /\ List.length (points (circle_series fig)) = 361%nat
  /\ points (circle_series fig)
       = map (fun d => let theta := d * (2 * PI / 360) in
                       (fst (center v) + radius v * cos theta,
                        radius v * sin theta))
             degrees.
Proof.
  cbn zeta.
  assert (P : forall v,
             points (circle_series (plot_msc self v))
             = map (fun d => (fst (center v) + radius v * cos (d * (2 * PI / 360)),
                              radius v * sin (d * (2 * PI / 360))))
                   degrees).
  { intros v. unfold plot_msc, points. cbn [circle_series fst snd].
    rewrite !map_map. apply combine_map_same. }
  assert (L : List.length degrees = 361%nat).
  { rewrite degrees_samples, length_map. apply length_seq. }
  split; [apply degrees_samples | split; [exact L | split]].
  - rewrite P, length_map. exact L.
  - apply P.
Qed.

(** ** Rounding *)

Lemma rint_nearest (x : R) (z : Z) :
  IZR z - 1 / 2 < x < IZR z + 1 / 2 -> rint x = z.
Proof.
  intros [Hlo Hhi]. unfold rint.
  destruct (Rlt_dec x (IZR z)) as [Hlt | Hge].
  - assert (F : Int_part x = (z - 1)%Z).
    { symmetry. apply Int_part_spec. rewrite minus_IZR. lra. }
    rewrite F, minus_IZR.
    destruct (Rlt_dec (x - (IZR z - 1)) (1 / 2)) as [A | _]; [lra |].
    destruct (Rlt_dec (1 / 2) (x - (IZR z - 1))) as [_ | B]; [lia | lra].
  - assert (F : Int_part x = z).
    { symmetry. apply Int_part_spec. lra. }
    rewrite F.
    destruct (Rlt_dec (x - IZR z) (1 / 2)) as [_ | A]; [reflexivity | lra].
Qed.

Lemma np_round_2 (v : R) (z : Z) :
  IZR z - 1 / 2 < v * 100 < IZR z + 1 / 2 -> np_round v 2 = IZR z / 100.
Proof.
  intros H. unfold np_round. replace (10 ^ 2) with 100 by ring.
  now rewrite (rint_nearest _ z).
Qed.

(** ** The script's example: sigmax = 90, sigmay = -60, shear = 20 *)

Lemma sqrt_6025_bounds : 77615 / 1000 < sqrt 6025 < 77625 / 1000.
Proof.
  assert (S2 : sqrt 6025 * sqrt 6025 = 6025) by (apply sqrt_sqrt; lra).
  assert (S0 : 0 <= sqrt 6025) by apply sqrt_pos.
  split; nra.
Qed.

Lemma circle_center : fst (center (values circle)) = 15.
Proof. cbn. lra. Qed.

Lemma circle_radius : radius (values circle) = sqrt 6025.
Proof. cbn. apply f_equal. lra. Qed.

Lemma circle_max : max_normal_stress (values circle) = 15 + sqrt 6025.
Proof.
  change (max_normal_stress (values circle))
    with (fst (center (values circle)) + radius (values circle)).
  now rewrite circle_center, circle_radius.
Qed.

Lemma circle_min : min_normal_stress (values circle) = 15 - sqrt 6025.
Proof.
  change (min_normal_stress (values circle))
    with (fst (center (values circle)) - radius (values circle)).
  now rewrite circle_center, circle_radius.
Qed.

Lemma circle_max_shear : max_shear_stress (values circle) = sqrt 6025.
Proof. exact circle_radius. Qed.

Lemma circle_rounded :
  np_round (radius (values circle)) 2 = 7762 / 100
  /\ np_round (max_normal_stress (values circle)) 2 = 9262 / 100
  /\ np_round (min_normal_stress (values circle)) 2 = - 6262 / 100
  /\ np_round (max_shear_stress (values circle)) 2 = 7762 / 100.
Proof.
  pose proof sqrt_6025_bounds as [Lo Hi].
  rewrite circle_max, circle_min, circle_max_shear, circle_radius.
  repeat split.
  - apply (np_round_2 _ 7762). lra.
  - apply (np_round_2 _ 9262). lra.
  - replace (- 6262 / 100) with (IZR (- 6262) / 100) by lra.
    apply (np_round_2 _ (- 6262)). lra.
  - apply (np_round_2 _ 7762). lra.
Qed.

(** C4, as the specification words it: with 90, -60 and 20 the centre is 15,
    the radius is sqrt(75^2 + 20^2), and to two decimals the radius is 77.63,
    maxNormal 92.63, minNormal -62.63 and maxShear 77.63.  This fails:
    sqrt 6025 lies below 77.625, so its two-decimal rounding is 77.62. *)
Lemma example_not_as_stated :
  let v := values (__init__ 90 (-60) 20) in
  ~ (fst (center v) = 15
     /\ radius v = sqrt (75 ^ 2 + 20 ^ 2)
     /\ np_round (radius v) 2 = 7763 / 100
     /\ np_round (max_normal_stress v) 2 = 9263 / 100
     /\ np_round (min_normal_stress v) 2 = - 6263 / 100
     /\ np_round (max_shear_stress v) 2 = 7763 / 100).
Proof.
  cbn zeta. fold circle. intros (_ & _ & H & _).
  rewrite (proj1 circle_rounded) in H. lra.
Qed.

(** C4, amended: with 90, -60 and 20 the centre is 15 (at shear 0), the
    radius is sqrt(75^2 + 20^2), and to two decimals the radius is 77.62,
    maxNormal 92.62, minNormal -62.62 and maxShear 77.62. *)
Theorem example_stress_state :
  let v := values (__init__ 90 (-60) 20) in
  center v = (15, 0)
  /\ radius v = sqrt (75 ^ 2 + 20 ^ 2)
  /\ np_round (radius v) 2 = 7762 / 100
  /\ np_round (max_normal_stress v) 2 = 9262 / 100
  /\ np_round (min_normal_stress v) 2 = - 6262 / 100
  /\ np_round (max_shear_stress v) 2 = 7762 / 100.
Proof.
  cbn zeta. fold circle.
  split; [| split].
  - cbn. apply (f_equal (fun c => (c, 0))). lra.
  - rewrite circle_radius. apply f_equal. lra.
  - exact circle_rounded.
Qed.

(** What the script prints for its example. *)
Example circle_printed :
  printed circle
  = ([ ("Sigma X"%string, [90]);
       ("Sigma Y"%string, [-60]);
       ("Shear Stress"%string, [20]) ],
     [ ("Center"%string, [15; 0]);
       ("Radius"%string, [7762 / 100]);
       ("Maximum normal stress"%string, [9262 / 100]);
       ("Minimum normal stress"%string, [- 6262 / 100]);
       ("Maximum shear stress"%string, [7762 / 100]) ]).
Proof.
  destruct circle_rounded as (R1 & R2 & R3 & R4).
  change (printed circle)
    with (disp_stress_state (element circle) (values circle)).
  unfold disp_stress_state. rewrite R1, R2, R3, R4.
  change (snd (center (values circle))) with 0.
  rewrite circle_center.
  change (sigmax (element circle)) with 90.
  change (sigmay (element circle)) with (-60).
  change (shear_stress (element circle)) with 20.
  assert (E : forall z, np_round (IZR z) 2 = IZR z).
  { intros z. replace (IZR z) with (IZR (z * 100) / 100) at 2
      by (rewrite mult_IZR; field).
    apply np_round_2. rewrite mult_IZR. lra. }
  now rewrite !E.
Qed.

(** ** The other examples of the specification *)

Example point_at_origin :
  let v := stress_state {| sigmax := 0; sigmay := 0; shear_stress := 0 |} in
  center v = (0, 0) /\ radius v = 0
  /\ max_normal_stress v = 0 /\ min_normal_stress v = 0
  /\ max_shear_stress v = 0.
Proof.
  cbn zeta.
  assert (R0 : radius (stress_state
                 {| sigmax := 0; sigmay := 0; shear_stress := 0 |}) = 0).
  { cbn. transitivity (sqrt 0); [apply f_equal; lra | apply sqrt_0]. }
  unfold stress_state in *. cbn in *. rewrite R0.
  repeat split; try lra. apply (f_equal (fun c => (c, 0))). lra.
Qed.

Example equal_normal_stresses :
  let v := stress_state {| sigmax := 50; sigmay := 50; shear_stress := 10 |} in
  center v = (50, 0) /\ radius v = 10
  /\ max_normal_stress v = 60 /\ min_normal_stress v = 40.
Proof.
  cbn zeta.
  assert (R0 : radius (stress_state
                 {| sigmax := 50; sigmay := 50; shear_stress := 10 |}) = 10).
  { cbn [stress_state radius sigmax sigmay shear_stress].
    transitivity (sqrt (10 ^ 2)); [apply f_equal; lra |].
    apply sqrt_sq_nonneg. lra. }
  unfold stress_state in *. cbn in *. rewrite R0.
  repeat split; try lra. apply (f_equal (fun c => (c, 0))). lra.
Qed.

(** ** The computation on binary64 numbers *)

Module Float64Facts.
Import PrimFloat FloatOps SpecFloat FloatAxioms.
Local Open Scope float_scope.

Example circle_evaluated :
  Float64.center Float64.circle = (15, 0)
  /\ Float64.radius Float64.circle = 0x1.367bc642048dp+6
  /\ Float64.max_normal_stress Float64.circle = 0x1.727bc642048dp+6
  /\ Float64.min_normal_stress Float64.circle = (-0x1.f4f78c84091ap+5)
  /\ Float64.max_shear_stress Float64.circle = 0x1.367bc642048dp+6.
Proof. vm_compute. repeat split. Qed.

(** The radius lies strictly between 77.615 and 77.625; 77.62 is the
    two-decimal number nearest to it. *)
Example circle_radius_window :
  (0x1.3675c28f5c28fp+6 <? Float64.radius Float64.circle) = true
  /\ (Float64.radius Float64.circle <? 0x1.3680000000000p+6) = true.
Proof. vm_compute. split; reflexivity. Qed.

(** *** Signs of squares and of their sum *)

Lemma round_aux_nonneg (m e : Z) (l : location) :
  Float64.sf_nonneg (binary_round_aux prec emax false m e l) = true.
Proof.
  unfold binary_round_aux.
  destruct (shr_fexp prec emax m e l) as [mrs' e'].
  destruct (shr_fexp prec emax _ e' loc_Exact) as [mrs'' e''].
  destruct (shr_m mrs''); [reflexivity | | reflexivity].
  destruct (Z.leb e'' (Z.sub emax prec)); reflexivity.
Qed.

Lemma SFmul_abs_nonneg (x : spec_float) :
  Float64.sf_nonneg (SF64mul (SFabs x) (SFabs x)) = true.
Proof.
  destruct x as [s | s | | s m e]; try reflexivity.
  apply round_aux_nonneg.
Qed.

Lemma SFadd_nonneg (x y : spec_float) :
  Float64.sf_nonneg x = true -> Float64.sf_nonneg y = true ->
  Float64.sf_nonneg (SF64add x y) = true.
Proof.
  destruct x as [sx | sx | | sx mx ex], y as [sy | sy | | sy my ey];
    cbn [Float64.sf_nonneg]; intros Hx Hy;
    try (destruct sx); try (destruct sy); try discriminate; try reflexivity.
  unfold SF64add, SFadd, cond_Zopp.
  cbn [Z.add binary_normalize]. unfold binary_round.
  match goal with
  | |- context [let '(a, b) := ?p in _] => destruct p as [mz ez]
  end.
  apply round_aux_nonneg.
Qed.

Lemma Prim2SF_nan (x : float) : is_nan x = true -> Prim2SF x = S754_nan.
Proof. intros E. unfold Prim2SF. now rewrite E. Qed.

Lemma pow2_nonneg (x : float) :
  Float64.sf_nonneg (Prim2SF (Float64.pow2 x)) = true.
Proof.
  unfold Float64.pow2.
  destruct (is_nan x) eqn:N; [now rewrite Prim2SF_nan |].
  destruct (is_infinity x); [reflexivity |].
  destruct (is_zero x); [reflexivity |].
  destruct (abs x =? 1); [reflexivity |].
  unfold Float64.libm_pow2. rewrite mul_spec, abs_spec.
  apply SFmul_abs_nonneg.
Qed.

Lemma nonneg_not_below_zero (x : float) :
  Float64.sf_nonneg (Prim2SF x) = true -> (x <? 0) = false.
Proof.
  rewrite ltb_spec. change (Prim2SF 0) with (S754_zero false).
  destruct (Prim2SF x) as [s | s | | s m e]; cbn [Float64.sf_nonneg];
    try destruct s; try discriminate; reflexivity.
Qed.

Lemma radicand_not_below_zero (x y t : float) :
  (Float64.radicand x y t <? 0) = false.
Proof.
  apply nonneg_not_below_zero. unfold Float64.radicand.
  rewrite add_spec. apply SFadd_nonneg; apply pow2_nonneg.
Qed.

Lemma SFsqrt_nonneg (x : spec_float) :
  Float64.sf_nonneg (SF64sqrt x) = true.
Proof.
  destruct x as [s | s | | s m e]; try destruct s; try reflexivity.
  unfold SF64sqrt, SFsqrt.
  destruct (SFsqrt_core_binary prec emax (Z.pos m) e) as [[mz ez] lz].
  apply round_aux_nonneg.
Qed.

(** X18: on all binary64 inputs, infinities and NaN included, the radius
    and the maximum shear stress the computation returns are never below
    zero. *)
Theorem radius_not_below_zero (x y t : float) :
  let v := Float64.stress_state x y t in
  (Float64.radius v <? 0) = false
  /\ (Float64.max_shear_stress v <? 0) = false.
Proof.
  cbv zeta. cbn [Float64.stress_state Float64.radius Float64.max_shear_stress].
  split; apply nonneg_not_below_zero; rewrite sqrt_spec; apply SFsqrt_nonneg.
Qed.

Lemma stress_state_checked_eq (x y t : float) :
  Float64.stress_state_checked x y t
  = if (Float64.pow2_overflows ((x - y) / 2) || Float64.pow2_overflows t)%bool
    then Err Overflow
    else Ok (Float64.stress_state x y t).
Proof.
  unfold Float64.stress_state_checked, Float64.float_div.
  change (is_zero 2) with false. cbn [bind].
  unfold Float64.float_pow2.
  destruct (Float64.pow2_overflows ((x - y) / 2)); [reflexivity |].
  destruct (Float64.pow2_overflows t); reflexivity.
Qed.

(** C8, as the specification words it: no error condition is reached on any
    input, whatever its magnitude.  This fails: with sigmax = 1e200 and
    sigmay = shear = 0 the square on line 49 leaves the binary64 range and
    [**] raises OverflowError. *)
Lemma stress_state_overflows :
  Float64.stress_state_checked 0x1.4e718d7d7625ap+664 0 0 = Err Overflow.
Proof. vm_compute. reflexivity. Qed.

(** C8, amended: on all binary64 inputs, of any sign and magnitude, the
    stress-state computation divides by the constant 2 only, so no division
    by zero occurs, and the argument of the square root, a sum of two
    squares, is never below zero.  The one error it can reach is the
    OverflowError of [**] on line 49, raised exactly when one of the two
    squares leaves the binary64 range; otherwise it returns the stress
    state. *)
Theorem stress_state_errors (x y t : float) :
  Float64.stress_state_checked x y t
  = (if (Float64.pow2_overflows ((x - y) / 2) || Float64.pow2_overflows t)%bool
     then Err Overflow
     else Ok (Float64.stress_state x y t))
  /\ is_zero 2 = false
  /\ Float64.stress_state_checked x y t <> Err ZeroDivision
  /\ Float64.stress_state_checked x y t <> Err SqrtOfNegative
  /\ (Float64.radicand x y t <? 0) = false.
Proof.
  split; [apply stress_state_checked_eq | split; [reflexivity |]].
  rewrite stress_state_checked_eq.
  repeat split; try apply radicand_not_below_zero;
    destruct (Float64.pow2_overflows ((x - y) / 2) || Float64.pow2_overflows t)%bool;
    discriminate.
Qed.

End Float64Facts.

(** ** Exact values of binary64 results *)

Module Float64Exact.
Import PrimFloat.

Ltac float_values :=
  unfold Float64.point_to_R, Float64.to_R;
  repeat match goal with
    | |- context [Float64.exactZ ?x] =>
        let q := eval vm_compute in (Float64.exactZ x) in
        change (Float64.exactZ x) with q
    end;
  cbv iota beta.

Ltac split_points :=
  match goal with
  | |- cons _ _ = cons _ _ => apply f_equal2
  | |- pair _ _ = pair _ _ => apply f_equal2
  end.

(** C6, as the specification words it, on the computed values.  This fails:
    with sigmax = sigmay = 2^60 and shear = 1 the computation returns the
    radius 1 and the centre 2^60, and both 2^60 + 1 and 2^60 - 1 round to
    2^60, so maxNormal - minNormal is 0 and not 2. *)
Lemma principal_gap_fails_binary64 :
  let v := Float64.stress_state 0x1p60%float 0x1p60%float 1%float in
  Float64.stress_state_checked 0x1p60%float 0x1p60%float 1%float = Ok v
  /\ Float64.to_R (Float64.max_normal_stress v) = 1152921504606846976
  /\ Float64.to_R (Float64.min_normal_stress v) = 1152921504606846976
  /\ Float64.to_R (Float64.radius v) = 1
  /\ Float64.to_R (Float64.max_normal_stress v)
       - Float64.to_R (Float64.min_normal_stress v)
     <> 2 * Float64.to_R (Float64.radius v)
  /\ (Float64.max_normal_stress v - Float64.min_normal_stress v
        =? 2 * Float64.radius v)%float = false.
Proof.
  cbv zeta.
  split; [vm_compute; reflexivity |].
  split; [float_values; lra |].
  split; [float_values; lra |].
  split; [float_values; lra |].
  split; [float_values; lra | vm_compute; reflexivity].
Qed.

(** C10, as the specification words it, on the computed values.  This
    fails: with sigmax = 1, sigmay = 2^-60 and shear = 0 the computation
    returns the centre 1/2 and the radius 1/2; the end point at sigmay is
    at distance 1/2 - 2^-60 from that centre, and the midpoint of the two
    end points is 1/2 + 2^-61. *)
Lemma line_not_diameter_binary64 :
  let v := Float64.stress_state 1%float 0x1p-60%float 0%float in
  let p := (1, 0) in
  let q := (1 / 1152921504606846976, 0) in
  let c := (1 / 2, 0) in
  Float64.stress_state_checked 1%float 0x1p-60%float 0%float = Ok v
  /\ map Float64.point_to_R (Float64.line_points 1%float 0x1p-60%float 0%float v)
     = [p; c; q]
  /\ Float64.point_to_R (Float64.center v) = c
  /\ Float64.to_R (Float64.radius v) = 1 / 2
  /\ dist q c <> 1 / 2
  /\ midpoint p q <> c.
Proof.
  cbv zeta.
  split; [vm_compute; reflexivity |].
  split.
  { unfold Float64.line_points. cbn [map]. float_values.
    repeat split_points; try reflexivity; lra. }
  split; [float_values; split_points; lra |].
  split; [float_values; lra |].
  split.
  - unfold dist. cbn [fst snd]. intros H.
    assert (S : 0 <= (1 / 1152921504606846976 - 1 / 2) ^ 2 + (0 - 0) ^ 2)
      by apply radicand_nonneg.
    apply sqrt_sqrt in S. rewrite H in S. lra.
  - unfold midpoint. cbn [fst snd]. intros H.
    apply (f_equal fst) in H. cbn [fst] in H. lra.
Qed.

End Float64Exact.

(** * Further properties *)

Lemma center_eq (self : stress_element) :
  center (stress_state self) = ((sigmax self + sigmay self) / 2, 0).
Proof. reflexivity. Qed.

Lemma negate_radius (self : stress_element) :
  radius (stress_state (negate_shear self)) = radius (stress_state self).
Proof. cbn. apply f_equal. field. Qed.

(** X12: the circle drawn depends on the centre and the radius only: the
    element with its normal stresses exchanged and the element with its
    shear negated give the same sampled circle as the original. *)
Theorem circle_series_invariant (self : stress_element) :
  circle_series (plot_msc (swap_normal self) (stress_state (swap_normal self)))
    = circle_series (plot_msc self (stress_state self))
  /\ circle_series (plot_msc (negate_shear self)
                             (stress_state (negate_shear self)))
    = circle_series (plot_msc self (stress_state self)).
Proof.
  unfold plot_msc. cbn [circle_series].
  rewrite swap_center, swap_radius, negate_radius.
  split; reflexivity.
Qed.

(** ** The printed report *)

Lemma np_round_2_exact (z : Z) : np_round (IZR z / 100) 2 = IZR z / 100.
Proof. apply np_round_2. lra. Qed.

(** X15: inputs that have at most two decimals are printed as they are. *)
Theorem printed_inputs_exact (a b c : Z) (v : stress_values) :
  let self := {| sigmax := IZR a / 100; sigmay := IZR b / 100;
                 shear_stress := IZR c / 100 |} in
  fst (disp_stress_state self v)
    = [ ("Sigma X"%string, [IZR a / 100]);
        ("Sigma Y"%string, [IZR b / 100]);
        ("Shear Stress"%string, [IZR c / 100]) ].
Proof.
  cbn zeta. unfold disp_stress_state.
  cbn [fst sigmax sigmay shear_stress].
  now rewrite !np_round_2_exact.
Qed.

(** ** The text annotations *)

Lemma Int_part_nonneg (x : R) : 0 <= x -> (0 <= Int_part x)%Z.
Proof.
  intros Hx. destruct (base_Int_part x) as [_ Hi].
  assert (L : (-1 < Int_part x)%Z) by (apply lt_IZR; lra).
  lia.
Qed.

Lemma int_truncates (x : R) :
  Rabs (IZR (int x)) <= Rabs x /\ Rabs (x - IZR (int x)) < 1.
Proof.
  unfold int. destruct (Rle_dec 0 x) as [P | N].
  - destruct (base_Int_part x) as [Lo Hi].
    pose proof (IZR_le _ _ (Int_part_nonneg x P)) as Z0.
    rewrite !Rabs_pos_eq by lra. lra.
  - assert (P : 0 <= - x) by lra.
    destruct (base_Int_part (- x)) as [Lo Hi].
    pose proof (IZR_le _ _ (Int_part_nonneg (- x) P)) as Z0.
    rewrite opp_IZR. split.
    + rewrite Rabs_Ropp, Rabs_pos_eq by lra. rewrite Rabs_left by lra. lra.
    + apply Rabs_def1; lra.
Qed.

Lemma int_zero : int 0 = 0%Z.
Proof.
  unfold int. destruct (Rle_dec 0 0) as [_ | N]; [| lra].
  symmetry. apply Int_part_spec. lra.
Qed.

(** X16: the last annotation is the centre label C(n, 0), centred one unit
    above the centre; n is the centre's normal stress truncated toward
    zero: not larger in magnitude than the centre and less than 1 away. *)
Theorem center_label (self : stress_element) :
  let v := stress_state self in
  let c := (sigmax self + sigmay self) / 2 in
  nth_error (plot_msc_text v) 3
    = Some {| anchor := (c, 1);
              text := [Lit "C("; Int (int c); Lit ", "; Int 0; Lit ")"];
              centered := true |}
  /\ Rabs (IZR (int c)) <= Rabs c
  /\ Rabs (c - IZR (int c)) < 1.
Proof.
  cbn zeta. split; [| apply int_truncates].
  unfold plot_msc_text. cbn [nth_error]. rewrite center_eq. cbn [fst snd].
  rewrite int_zero, Rplus_0_l. reflexivity.
Qed.
